(** * The public entry points of HCL's JSON syntax package ([json/public.go])

    A shallow embedding of [Parse], [ParseWithStartPos], [ParseExpression],
    [ParseExpressionWithStartPos] and [ParseFile], with the properties of the
    facade: the root constraint, the shape of the returned file, and the
    handling of open, read and close failures. *)

From Stdlib Require Import ZArith String List Bool.
From Stdlib Require Import Strings.Byte.
Import ListNotations.

Local Open Scope string_scope.
Local Open Scope Z_scope.
Local Open Scope list_scope.

Set Warnings "-register-all".

(** ** Package [hcl]: positions, ranges, diagnostics, files *)

Module hcl.

(** [hcl.Pos]: a Go [int] per field. *)
Record Pos : Set := mkPos { Line : Z; Column : Z; Byte : Z }.

(** [hcl.Range]. *)
Record Range : Set := mkRange { Filename : string; Start : Pos; End : Pos }.

(** [Range.Ptr]: a pointer to a copy of the range. *)
Definition Ptr (r : Range) : option Range := Some r.

Inductive DiagnosticSeverity : Set := DiagError | DiagWarning.

(** [hcl.Diagnostic]; a nil [*Range] is [None].  A field that a Go
    composite literal leaves out holds its zero value, here nil. *)
Record Diagnostic : Set := mkDiagnostic {
  Severity : DiagnosticSeverity;
  Summary : string;
  Detail : string;
  Subject : option Range;
  Context : option Range
}.

(** [hcl.Diagnostics] is a slice of diagnostics; the nil slice is []. *)
Definition Diagnostics : Set := list Diagnostic.

(** [Diagnostics.Append]. *)
Definition Append (diags : Diagnostics) (diag : Diagnostic) : Diagnostics :=
  diags ++ [diag].

(** [hcl.File]: [Body] has the interface type [hcl.Body] and [Nav] the
    empty interface, so the record is generic in what implements them. *)
Record File (B N : Type) : Type := mkFile {
  Body : B;
  Bytes : list byte;
  Nav : N
}.
Arguments mkFile {B N} _ _ _.
Arguments Body {B N} _.
Arguments Bytes {B N} _.
Arguments Nav {B N} _.

End hcl.

(** ** Package [json] *)

Module json.

Import hcl.

(** Modelled from the spec: the node types, declared outside public.go.
    A closed set of variants; every node carries its SrcRange, object and
    array nodes also the OpenRange of their opening delimiter.  A number
    keeps its literal (sign, integer part, fraction, exponent). *)
Inductive node : Set :=
| objectVal (Attrs : list objectAttr) (SrcRange OpenRange : Range)
| arrayVal (Values : list node) (SrcRange OpenRange : Range)
| stringVal (Value : string) (SrcRange : Range)
| numberVal (Value : Decimal.decimal) (SrcRange : Range)
| booleanVal (Value : bool) (SrcRange : Range)
| nullVal (SrcRange : Range)
with objectAttr : Set :=
| mkObjectAttr (Name : string) (NameSrcRange : Range) (Value : node)
               (NameRange : Range).

(** The [body] and [navigation] views and the [expression] wrapper, with
    the fields public.go fills in. *)
Record body : Set := mkBody { val : node }.
Record navigation : Set := mkNavigation { root : node }.
Record expression : Set := mkExpression { src : node }.

(** [*hcl.File] as this package builds it; a nil pointer is [None]. *)
Definition File : Type := hcl.File body navigation.

(** The package's unexported collaborators, declared outside public.go:
    the two parser entry points and the [StartRange] method of nodes.  The
    parser always hands back a root node next to its diagnostics. *)
Class Internals : Type := {
  parseFileContent : list byte -> string -> Pos -> node * Diagnostics;
  parseExpression : list byte -> string -> Pos -> node * Diagnostics;
  StartRange : node -> Range
}.

Section Parsing.

Context {I : Internals}.

Definition ParseWithStartPos (src : list byte) (filename : string)
    (start : Pos) : option File * Diagnostics :=
  let '(rootNode, diags) := parseFileContent src filename start in
  let '(rootNode, diags) :=
    match rootNode with
    | objectVal _ _ _ | arrayVal _ _ _ =>
        (rootNode, diags)
    | _ =>
        let diags := Append diags {|
          Severity := DiagError;
          Summary := "Root value must be object";
          Detail := "The root value in a JSON-based configuration must be either a JSON object or a JSON array of objects.";
          Subject := Ptr (StartRange rootNode);
          Context := None
        |} in
        let fakePos := {| Byte := 0; Line := 1; Column := 1 |} in
        let fakeRange := {|
          Filename := filename;
          Start := fakePos;
          End := fakePos
        |} in
        (objectVal [] fakeRange fakeRange, diags)
    end in
  let file := {|
    Body := {| val := rootNode |};
    Bytes := src;
    Nav := {| root := rootNode |}
  |} in
  (Some file, diags).

Definition Parse (src : list byte) (filename : string)
    : option File * Diagnostics :=
  ParseWithStartPos src filename {| Byte := 0; Line := 1; Column := 1 |}.

Definition ParseExpressionWithStartPos (src : list byte)
    (filename : string) (start : Pos) : expression * Diagnostics :=
  let '(node, diags) := parseExpression src filename start in
  ({| json.src := node |}, diags).

Definition ParseExpression (src : list byte) (filename : string)
    : expression * Diagnostics :=
  ParseExpressionWithStartPos src filename
    {| Byte := 0; Line := 1; Column := 1 |}.

End Parsing.

(** ** The file-loading wrapper

    [ParseFile] talks to the operating system through [os.Open],
    [io.ReadAll] and the [Close] method of [os.File], and formats its messages with
    the [%q] verb of [fmt.Sprintf].  These belong to Go's standard library;
    the model threads the state of the outside world through them. *)
Class GoRuntime : Type := {
  World : Type;
  os_File : Type;
  error : Type;
  os_Open : string -> World -> (os_File + error) * World;
  io_ReadAll : os_File -> World -> (list byte * option error) * World;
  File_Close : os_File -> World -> option error * World;
  Quote : string -> string
}.

Section Loading.

Context {I : Internals} {R : GoRuntime}.

(** Computations that act on the outside world. *)
Definition IO (A : Type) : Type := World -> A * World.

Definition ret {A : Type} (a : A) : IO A := fun w => (a, w).

Definition bind {A B : Type} (m : IO A) (k : A -> IO B) : IO B :=
  fun w => let '(a, w') := m w in k a w'.

Notation "x <- m ;; k" := (bind m (fun x => k))
  (at level 61, m at next level, right associativity).
Notation "' p <- m ;; k" := (bind m (fun x => let 'p := x in k))
  (at level 61, p pattern, m at next level, right associativity).

(** A deferred call in a function with the named results [rf] and
    [diags]: it runs once the body has set both, whichever [return] the
    body left through, and may update [diags] before the caller sees it. *)
Definition defer {A : Type} (deferred : Diagnostics -> IO Diagnostics)
    (body : IO (A * Diagnostics)) : IO (A * Diagnostics) :=
  '(rf, diags) <- body ;;
  diags <- deferred diags ;;
  ret (rf, diags).

Definition ParseFile (filename : string)
    : IO (option File * Diagnostics) :=
  let rf : option File := None in
  let diags : Diagnostics := [] in
  r <- os_Open filename ;;
  match r with
  | inr err =>
      let diags := diags ++ [{|
        Severity := DiagError;
        Summary := "Failed to open file";
        Detail := ("The file " ++ Quote filename
                   ++ " could not be opened.")%string;
        Subject := None;
        Context := None
      |}] in
      ret (rf, diags)
  | inl f =>
      defer
        (fun diags =>
           err <- File_Close f ;;
           match err with
           | Some _ =>
               ret (diags ++ [{|
                 Severity := DiagWarning;
                 Summary := "Failed to close file";
                 Detail := ("The file " ++ Quote filename
                            ++ " was opened, but an error occured while closing it.")%string;
                 Subject := None;
                 Context := None
               |}])
           | None => ret diags
           end)
        ('(src, err) <- io_ReadAll f ;;
         match err with
         | Some _ =>
             ret (None, [{|
               Severity := DiagError;
               Summary := "Failed to read file";
               Detail := ("The file " ++ Quote filename
                          ++ " was opened, but an error occured while reading it.")%string;
               Subject := None;
               Context := None
             |}])
         | None => ret (Parse src filename)
         end)
  end.

End Loading.

(** ** Vocabulary of the statements *)

Definition isObject (n : node) : bool :=
  match n with objectVal _ _ _ => true | _ => false end.

Definition isArray (n : node) : bool :=
  match n with arrayVal _ _ _ => true | _ => false end.

(** Does opening [filename] fail in world [w]? *)
Definition openFails {R : GoRuntime} (filename : string) (w : World)
    : bool :=
  match fst (os_Open filename w) with
  | inr _ => true
  | inl _ => false
  end.

(** Does [filename] open in world [w], and reading it then fail? *)
Definition readFails {R : GoRuntime} (filename : string) (w : World)
    : bool :=
  match os_Open filename w with
  | (inl f, w1) =>
      match fst (io_ReadAll f w1) with
      | (_, Some _) => true
      | (_, None) => false
      end
  | (inr _, _) => false
  end.

(** Is the diagnostic of error severity? *)
Definition isError (diag : Diagnostic) : bool :=
  match Severity diag with
  | DiagError => true
  | DiagWarning => false
  end.

(** ** Sample collaborators, to run the entry points on concrete inputs *)

Module Samples.

(** The range of [n] bytes on one line, from [start] on. *)
Definition span (filename : string) (start : Pos) (n : Z) : Range :=
  {| Filename := filename;
     Start := start;
     End := {| Line := Line start;
               Column := Column start + n;
               Byte := Byte start + n |} |}.

(** The root of the seven-byte document made of the string hello in
    quotes, and the root of the two-byte document of an empty object. *)
Definition helloRoot (filename : string) (start : Pos) : node :=
  stringVal "hello" (span filename start 7).

Definition emptyObjectRoot (filename : string) (start : Pos) : node :=
  objectVal [] (span filename start 2) (span filename start 1).

Definition helloBytes : list byte := [x22; x68; x65; x6c; x6c; x6f; x22].

Definition emptyObjectBytes : list byte := [x7b; x7d].

(** An oracle for the parser on one document: the root it answers is
    placed at the file name and start position it is called with. *)
Definition oracle (mk : string -> Pos -> node) (diags : Diagnostics)
    : Internals :=
  {| parseFileContent _ filename start := (mk filename start, diags);
     parseExpression _ filename start := (mk filename start, diags);
     StartRange n :=
       match n with
       | objectVal _ _ o | arrayVal _ _ o => o
       | stringVal _ r | numberVal _ r | booleanVal _ r | nullVal r => r
       end |}.

(** [%q] on a name made of plain printable characters: the name between
    double quotes, nothing to escape. *)
Definition quoted (name : string) : string :=
  String (Ascii.ascii_of_nat 34)
    (name ++ String (Ascii.ascii_of_nat 34) EmptyString)%string.

(** A scripted system with a single file: which of the three calls fail
    is fixed in advance, and the world is the log of the calls made. *)
Inductive call : Set :=
| CallOpen (name : string)
| CallReadAll
| CallClose.

Definition scripted (openErr readErr closeErr : bool)
    (content : list byte) : GoRuntime :=
  {| World := list call;
     os_File := unit;
     error := string;
     os_Open name w :=
       (if openErr then inr "no such file or directory" else inl tt,
        w ++ [CallOpen name]);
     io_ReadAll _ w :=
       (if readErr then ([], Some "input/output error")
        else (content, None),
        w ++ [CallReadAll]);
     File_Close _ w :=
       (if closeErr then Some "file already closed" else None,
        w ++ [CallClose]);
     Quote name := quoted name |}.

Definition helloParser : Internals := oracle helloRoot [].

Definition emptyObjectParser : Internals := oracle emptyObjectRoot [].

(** A start position inside an enclosing document. *)
Definition embeddedAt : Pos := {| Line := 7; Column := 3; Byte := 120 |}.

End Samples.

(** ** Properties of [ParseWithStartPos], [Parse] and [ParseExpression] *)

Section RootConstraint.

Context {I : Internals}.

Variables (src : list byte) (filename : string) (start : Pos).

(** The range that the placeholder object receives. *)
Let zeroRange : Range :=
  {| Filename := filename;
     Start := {| Line := 1; Column := 1; Byte := 0 |};
     End := {| Line := 1; Column := 1; Byte := 0 |} |}.

(** The [default] arm of the type switch, in one equation. *)
Lemma ParseWithStartPos_default (rootNode : node) (diags : Diagnostics) :
  parseFileContent src filename start = (rootNode, diags) ->
  isObject rootNode = false ->
  isArray rootNode = false ->
  ParseWithStartPos src filename start =
    (Some {| Body := {| val := objectVal [] zeroRange zeroRange |};
             Bytes := src;
             Nav := {| root := objectVal [] zeroRange zeroRange |} |},
     diags ++ [{| Severity := DiagError;
                  Summary := "Root value must be object";
                  Detail := "The root value in a JSON-based configuration must be either a JSON object or a JSON array of objects.";
                  Subject := Some (StartRange rootNode);
                  Context := None |}]).
Proof.
  intros Hparse Hobj Harr. unfold ParseWithStartPos. rewrite Hparse.
  destruct rootNode; simpl in Hobj, Harr; try discriminate; reflexivity.
Qed.

(** The first arm of the type switch, in one equation. *)
Lemma ParseWithStartPos_okay (rootNode : node) (diags : Diagnostics) :
  parseFileContent src filename start = (rootNode, diags) ->
  isObject rootNode = true \/ isArray rootNode = true ->
  ParseWithStartPos src filename start =
    (Some {| Body := {| val := rootNode |};
             Bytes := src;
             Nav := {| root := rootNode |} |},
     diags).
Proof.
  intros Hparse Hkind. unfold ParseWithStartPos. rewrite Hparse.
  destruct rootNode; simpl in Hkind; try reflexivity;
    destruct Hkind; discriminate.
Qed.

(** C1.  When the parsed root is neither an object nor an array,
    [ParseWithStartPos] appends exactly one diagnostic to those of the
    parser, an error summarised "Root value must be object"; the body of
    the returned file wraps an object without attributes whose source
    range has equal start and end, and whatever is later computed from
    the body is what would be computed from that empty object. *)
Theorem root_value_must_be_object (rootNode : node) (diags : Diagnostics) :
  parseFileContent src filename start = (rootNode, diags) ->
  isObject rootNode = false ->
  isArray rootNode = false ->
  exists (file : File) (diag : Diagnostic) (srcRange openRange : Range),
    ParseWithStartPos src filename start = (Some file, diags ++ [diag]) /\
    Severity diag = DiagError /\
    Summary diag = "Root value must be object" /\
    val (Body file) = objectVal [] srcRange openRange /\
    Start srcRange = End srcRange /\
    forall (T : Type) (extract : body -> T),
      extract (Body file) =
      extract {| val := objectVal [] srcRange openRange |}.
Proof.
  intros Hparse Hobj Harr.
  rewrite (ParseWithStartPos_default _ _ Hparse Hobj Harr).
  do 4 eexists. repeat split.
Qed.

(** C2.  When the parsed root is an object or an array,
    [ParseWithStartPos] returns the parser's diagnostics as they are,
    and the body of the returned file wraps that very root. *)
Theorem root_object_or_array_kept (rootNode : node) (diags : Diagnostics) :
  parseFileContent src filename start = (rootNode, diags) ->
  isObject rootNode = true \/ isArray rootNode = true ->
  exists file : File,
    ParseWithStartPos src filename start = (Some file, diags) /\
    val (Body file) = rootNode.
Proof.
  intros Hparse Hkind.
  rewrite (ParseWithStartPos_okay _ _ Hparse Hkind).
  eexists. split; reflexivity.
Qed.

(** C3.  [ParseWithStartPos] always returns a file, never nil: its
    [Bytes] are the input buffer, and its [Nav] wraps the root node that its
    [Body] wraps (the parsed root when that is an object or an array, the
    empty placeholder otherwise).  The diagnostics returned with it are the
    complete list: all the diagnostics of the parser, in their order,
    followed by the root error exactly when the parsed root is neither an
    object nor an array, and by nothing otherwise. *)
Theorem ParseWithStartPos_returns_file :
  exists file : File,
    ParseWithStartPos src filename start =
      (Some file,
       snd (parseFileContent src filename start)
       ++ (let rootNode := fst (parseFileContent src filename start) in
           if isObject rootNode || isArray rootNode then []
           else [{| Severity := DiagError;
                    Summary := "Root value must be object";
                    Detail := "The root value in a JSON-based configuration must be either a JSON object or a JSON array of objects.";
                    Subject := Some (StartRange rootNode);
                    Context := None |}])) /\
    Bytes file = src /\
    root (Nav file) = val (Body file) /\
    root (Nav file) =
      (let rootNode := fst (parseFileContent src filename start) in
       if isObject rootNode || isArray rootNode then rootNode
       else objectVal [] zeroRange zeroRange).
Proof.
  destruct (parseFileContent src filename start) as [rootNode diags] eqn:Hparse.
  destruct (isObject rootNode || isArray rootNode) eqn:Hkind.
  - pose proof Hkind as Hor. apply orb_true_iff in Hor.
    rewrite (ParseWithStartPos_okay _ _ Hparse Hor).
    exists {| Body := {| val := rootNode |};
              Bytes := src;
              Nav := {| root := rootNode |} |}.
    cbn [fst snd Bytes Nav Body root val]. rewrite Hkind, app_nil_r.
    repeat split.
  - pose proof Hkind as Hboth. apply orb_false_iff in Hboth.
    destruct Hboth as [Hobj Harr].
    rewrite (ParseWithStartPos_default _ _ Hparse Hobj Harr).
    eexists. cbn [fst snd Bytes Nav Body root val].
    rewrite Hkind. repeat split.
Qed.

(** C4.  [Parse] is [ParseWithStartPos] at byte 0, line 1, column 1, and
    [ParseExpression] is [ParseExpressionWithStartPos] at that position:
    same result, same diagnostics. *)
Theorem Parse_starts_at_origin :
  Parse src filename =
    ParseWithStartPos src filename
      {| Line := 1; Column := 1; Byte := 0 |} /\
  ParseExpression src filename =
    ParseExpressionWithStartPos src filename
      {| Line := 1; Column := 1; Byte := 0 |}.
Proof. split; reflexivity. Qed.

(** C8.  When the root error fires, the source range and the open range
    of the placeholder object are both the empty range at byte 0, line 1,
    column 1 of [filename], whatever start position was passed in. *)
Theorem placeholder_range_ignores_start
    (rootNode : node) (diags : Diagnostics) :
  parseFileContent src filename start = (rootNode, diags) ->
  isObject rootNode = false ->
  isArray rootNode = false ->
  exists file : File,
    fst (ParseWithStartPos src filename start) = Some file /\
    val (Body file) =
      objectVal []
        {| Filename := filename;
           Start := {| Line := 1; Column := 1; Byte := 0 |};
           End := {| Line := 1; Column := 1; Byte := 0 |} |}
        {| Filename := filename;
           Start := {| Line := 1; Column := 1; Byte := 0 |};
           End := {| Line := 1; Column := 1; Byte := 0 |} |}.
Proof.
  intros Hparse Hobj Harr.
  rewrite (ParseWithStartPos_default _ _ Hparse Hobj Harr).
  eexists. split; reflexivity.
Qed.

(** C9.  The subject of the "Root value must be object" error is the
    start range of the root node the parser returned; it is not the range
    of the placeholder, unless the two happen to be the same range. *)
Theorem root_error_subject (rootNode : node) (diags : Diagnostics) :
  parseFileContent src filename start = (rootNode, diags) ->
  isObject rootNode = false ->
  isArray rootNode = false ->
  exists diag : Diagnostic,
    snd (ParseWithStartPos src filename start) = diags ++ [diag] /\
    Summary diag = "Root value must be object" /\
    Subject diag = Some (StartRange rootNode) /\
    (StartRange rootNode <> zeroRange -> Subject diag <> Some zeroRange).
Proof.
  intros Hparse Hobj Harr.
  rewrite (ParseWithStartPos_default _ _ Hparse Hobj Harr).
  eexists. cbn [snd Summary Subject]. repeat split.
  intros Hne Heq. apply Hne. now injection Heq.
Qed.

End RootConstraint.

(** ** Properties of [ParseFile] *)

Section FileLoading.

Context {R : GoRuntime}.

Variables (filename : string) (w : World).

(** [ParseFile] after a failed [os.Open]. *)
Lemma ParseFile_not_opened {I : Internals} (err : error) (w1 : World) :
  os_Open filename w = (inr err, w1) ->
  ParseFile filename w =
    (None,
     [{| Severity := DiagError;
         Summary := "Failed to open file";
         Detail := ("The file " ++ Quote filename
                    ++ " could not be opened.")%string;
         Subject := None;
         Context := None |}],
     w1).
Proof.
  intros Hopen. unfold ParseFile, bind. rewrite Hopen. reflexivity.
Qed.

(** [ParseFile] after a successful [os.Open] and a failed [io.ReadAll]. *)
Lemma ParseFile_not_read {I : Internals} (f : os_File) (w1 : World)
    (data : list byte) (err : error) (w2 : World)
    (cerr : option error) (w3 : World) :
  os_Open filename w = (inl f, w1) ->
  io_ReadAll f w1 = (data, Some err, w2) ->
  File_Close f w2 = (cerr, w3) ->
  ParseFile filename w =
    (None,
     {| Severity := DiagError;
        Summary := "Failed to read file";
        Detail := ("The file " ++ Quote filename
                   ++ " was opened, but an error occured while reading it.")%string;
        Subject := None;
        Context := None |}
     :: match cerr with
        | Some _ =>
            [{| Severity := DiagWarning;
                Summary := "Failed to close file";
                Detail := ("The file " ++ Quote filename
                           ++ " was opened, but an error occured while closing it.")%string;
                Subject := None;
                Context := None |}]
        | None => []
        end,
     w3).
Proof.
  intros Hopen Hread Hclose. unfold ParseFile, defer, bind.
  rewrite Hopen, Hread. cbn [ret]. rewrite Hclose.
  destruct cerr; reflexivity.
Qed.

(** [ParseFile] after a successful [os.Open] and [io.ReadAll]. *)
Lemma ParseFile_read {I : Internals} (f : os_File) (w1 : World)
    (data : list byte) (w2 : World) (cerr : option error) (w3 : World) :
  os_Open filename w = (inl f, w1) ->
  io_ReadAll f w1 = (data, None, w2) ->
  File_Close f w2 = (cerr, w3) ->
  ParseFile filename w =
    (fst (Parse data filename),
     snd (Parse data filename)
     ++ match cerr with
        | Some _ =>
            [{| Severity := DiagWarning;
                Summary := "Failed to close file";
                Detail := ("The file " ++ Quote filename
                           ++ " was opened, but an error occured while closing it.")%string;
                Subject := None;
                Context := None |}]
        | None => []
        end,
     w3).
Proof.
  intros Hopen Hread Hclose. unfold ParseFile, defer, bind.
  rewrite Hopen, Hread. cbn [ret].
  destruct (Parse data filename) as [rf diags]. rewrite Hclose.
  destruct cerr; cbn [fst snd ret]; rewrite ?app_nil_r; reflexivity.
Qed.

(** [Parse] never answers nil. *)
Lemma Parse_not_nil {I : Internals} (data : list byte) :
  fst (Parse data filename) <> None.
Proof.
  unfold Parse, ParseWithStartPos.
  destruct (parseFileContent _ _ _) as [rootNode diags].
  destruct rootNode; discriminate.
Qed.

End FileLoading.

Section FileLoadingOutcomes.

Context {R : GoRuntime}.

(** [ParseFile] answers nil exactly when opening or reading failed. *)
Lemma ParseFile_nil_iff {I : Internals} (filename : string) (w : World) :
  fst (fst (ParseFile filename w)) = None <->
  openFails filename w || readFails filename w = true.
Proof.
  unfold openFails, readFails.
  destruct (os_Open filename w) as [[f | err] w1] eqn:Hopen.
  - destruct (io_ReadAll f w1) as [[data [err |]] w2] eqn:Hread;
      destruct (File_Close f w2) as [cerr w3] eqn:Hclose.
    + rewrite (ParseFile_not_read _ _ _ _ _ _ _ _ _ Hopen Hread Hclose).
      cbn. tauto.
    + rewrite (ParseFile_read _ _ _ _ _ _ _ _ Hopen Hread Hclose).
      cbn. split; [intros Hnil | discriminate].
      now apply Parse_not_nil in Hnil.
  - rewrite (ParseFile_not_opened _ _ _ _ Hopen). cbn. tauto.
Qed.

Variables (filename : string) (w : World).

(** C5.  When opening the file fails, [ParseFile] returns nil and exactly
    one diagnostic, an error without subject and without context; the
    answer is the same whatever the parser, and the world is left as
    [os.Open] left it. *)
Theorem ParseFile_open_failure (err : error) (w1 : World) :
  os_Open filename w = (inr err, w1) ->
  exists diag : Diagnostic,
    (forall I : Internals, ParseFile filename w = (None, [diag], w1)) /\
    Severity diag = DiagError /\
    Subject diag = None /\
    Context diag = None.
Proof.
  intros Hopen. eexists. split.
  - intros I. apply (ParseFile_not_opened _ _ _ _ Hopen).
  - repeat split.
Qed.

(** C6.  When the file opens and reading it fails, [ParseFile] returns
    nil with the error "Failed to read file" at the head of its
    diagnostics, the same whatever the parser; and over all file names
    and worlds, [ParseFile] returns nil exactly when opening or reading
    fails. *)
Theorem ParseFile_read_failure (f : os_File) (w1 : World)
    (data : list byte) (err : error) (w2 : World)
    (cerr : option error) (w3 : World) :
  os_Open filename w = (inl f, w1) ->
  io_ReadAll f w1 = (data, Some err, w2) ->
  File_Close f w2 = (cerr, w3) ->
  (exists (diag : Diagnostic) (rest : Diagnostics),
     (forall I : Internals,
        ParseFile filename w = (None, diag :: rest, w3)) /\
     Severity diag = DiagError /\
     Summary diag = "Failed to read file") /\
  (forall (I : Internals) (name : string) (w0 : World),
     fst (fst (ParseFile name w0)) = None <->
     openFails name w0 || readFails name w0 = true).
Proof.
  intros Hopen Hread Hclose. split.
  - do 2 eexists. split.
    + intros I. apply (ParseFile_not_read _ _ _ _ _ _ _ _ _ Hopen Hread Hclose).
    + split; reflexivity.
  - intros I name w0. apply ParseFile_nil_iff.
Qed.

(** C7.  When the file is opened and read and closing it fails,
    [ParseFile] returns the file that [Parse] makes of the bytes read,
    and the diagnostics of [Parse] followed by one warning, not an error,
    summarised "Failed to close file". *)
Theorem ParseFile_close_failure {I : Internals} (f : os_File)
    (w1 : World) (data : list byte) (w2 : World) (err : error)
    (w3 : World) :
  os_Open filename w = (inl f, w1) ->
  io_ReadAll f w1 = (data, None, w2) ->
  File_Close f w2 = (Some err, w3) ->
  exists (file : File) (diag : Diagnostic),
    fst (Parse data filename) = Some file /\
    ParseFile filename w =
      (Some file, snd (Parse data filename) ++ [diag], w3) /\
    Severity diag = DiagWarning /\
    Severity diag <> DiagError /\
    Summary diag = "Failed to close file".
Proof.
  intros Hopen Hread Hclose.
  rewrite (ParseFile_read _ _ _ _ _ _ _ _ Hopen Hread Hclose).
  destruct (fst (Parse data filename)) as [file |] eqn:Hfile.
  - exists file. eexists. repeat split. discriminate.
  - now apply Parse_not_nil in Hfile.
Qed.

(** C10.  When reading fails after a successful open and closing fails
    too, [ParseFile] returns nil with both diagnostics: the error
    "Failed to read file", then the warning "Failed to close file". *)
Theorem ParseFile_read_and_close_failure (f : os_File) (w1 : World)
    (data : list byte) (rerr : error) (w2 : World) (cerr : error)
    (w3 : World) :
  os_Open filename w = (inl f, w1) ->
  io_ReadAll f w1 = (data, Some rerr, w2) ->
  File_Close f w2 = (Some cerr, w3) ->
  exists readDiag closeDiag : Diagnostic,
    (forall I : Internals,
       ParseFile filename w = (None, [readDiag; closeDiag], w3)) /\
    Severity readDiag = DiagError /\
    Summary readDiag = "Failed to read file" /\
    Severity closeDiag = DiagWarning /\
    Summary closeDiag = "Failed to close file".
Proof.
  intros Hopen Hread Hclose. do 2 eexists. split.
  - intros I. apply (ParseFile_not_read _ _ _ _ _ _ _ _ _ Hopen Hread Hclose).
  - repeat split.
Qed.

End FileLoadingOutcomes.

(** ** The statements at concrete inputs *)

Import Samples.

(** A healthy system and an object document: the file, no diagnostics,
    and the three calls in order. *)
Example ParseFile_healthy :
  ParseFile (I := emptyObjectParser)
    (R := scripted false false false emptyObjectBytes) "empty.json" []
  = (Some {| Body :=
               {| val := emptyObjectRoot "empty.json"
                           {| Line := 1; Column := 1; Byte := 0 |} |};
             Bytes := emptyObjectBytes;
             Nav :=
               {| root := emptyObjectRoot "empty.json"
                            {| Line := 1; Column := 1; Byte := 0 |} |} |},
     [],
     [CallOpen "empty.json"; CallReadAll; CallClose]).
Proof. reflexivity. Qed.

(** A file that cannot be opened is neither read nor closed. *)
Example ParseFile_missing_calls :
  snd (ParseFile (I := helloParser)
         (R := scripted true false false []) "missing.json" [])
  = [CallOpen "missing.json"].
Proof. reflexivity. Qed.

(** The summaries after a failed read and a failed close, in order. *)
Example ParseFile_two_failures :
  map Summary
    (snd (fst (ParseFile (I := helloParser)
                 (R := scripted false true true []) "disk.json" [])))
  = ["Failed to read file"; "Failed to close file"].
Proof. reflexivity. Qed.

(** A string document read from a healthy system: [Parse] supplies the
    root error and the placeholder, and nothing is added on closing. *)
Example ParseFile_string_root :
  map Summary
    (snd (fst (ParseFile (I := helloParser)
                 (R := scripted false false false helloBytes)
                 "hello.json" [])))
  = ["Root value must be object"].
Proof. reflexivity. Qed.

(** The document of the string hello, parsed as a fragment embedded at
    line 7: one error, and an empty object at the origin of the file. *)
Lemma root_value_must_be_object_witness :
  exists (file : File) (diag : Diagnostic) (srcRange openRange : Range),
    ParseWithStartPos (I := helloParser) helloBytes "hello.json" embeddedAt
      = (Some file, [] ++ [diag]) /\
    Severity diag = DiagError /\
    Summary diag = "Root value must be object" /\
    val (Body file) = objectVal [] srcRange openRange /\
    Start srcRange = End srcRange /\
    forall (T : Type) (extract : body -> T),
      extract (Body file) =
      extract {| val := objectVal [] srcRange openRange |}.
Proof.
  apply (root_value_must_be_object (I := helloParser) helloBytes
           "hello.json" embeddedAt (helloRoot "hello.json" embeddedAt) []);
    reflexivity.
Defined.

Lemma root_object_or_array_kept_witness :
  exists file : File,
    ParseWithStartPos (I := emptyObjectParser) emptyObjectBytes
      "empty.json" embeddedAt = (Some file, []) /\
    val (Body file) = emptyObjectRoot "empty.json" embeddedAt.
Proof.
  apply (root_object_or_array_kept (I := emptyObjectParser)
           emptyObjectBytes "empty.json" embeddedAt
           (emptyObjectRoot "empty.json" embeddedAt) []).
  - reflexivity.
  - left. reflexivity.
Defined.

Lemma placeholder_range_ignores_start_witness :
  exists file : File,
    fst (ParseWithStartPos (I := helloParser) helloBytes "hello.json"
           embeddedAt) = Some file /\
    val (Body file) =
      objectVal []
        {| Filename := "hello.json";
           Start := {| Line := 1; Column := 1; Byte := 0 |};
           End := {| Line := 1; Column := 1; Byte := 0 |} |}
        {| Filename := "hello.json";
           Start := {| Line := 1; Column := 1; Byte := 0 |};
           End := {| Line := 1; Column := 1; Byte := 0 |} |}.
Proof.
  apply (placeholder_range_ignores_start (I := helloParser) helloBytes
           "hello.json" embeddedAt (helloRoot "hello.json" embeddedAt) []);
    reflexivity.
Defined.

(** The subject of the error is where the string stands in the enclosing
    document, from column 3 to column 10 of line 7. *)
Lemma root_error_subject_witness :
  exists diag : Diagnostic,
    snd (ParseWithStartPos (I := helloParser) helloBytes "hello.json"
           embeddedAt) = [diag] /\
    Subject diag =
      Some {| Filename := "hello.json";
              Start := {| Line := 7; Column := 3; Byte := 120 |};
              End := {| Line := 7; Column := 10; Byte := 127 |} |} /\
    Subject diag <>
      Some {| Filename := "hello.json";
              Start := {| Line := 1; Column := 1; Byte := 0 |};
              End := {| Line := 1; Column := 1; Byte := 0 |} |}.
Proof.
  destruct (root_error_subject (I := helloParser) helloBytes "hello.json"
              embeddedAt (helloRoot "hello.json" embeddedAt) []
              eq_refl eq_refl eq_refl)
    as (diag & Hdiags & _ & Hsubject & Hother).
  exists diag. repeat split.
  - exact Hdiags.
  - exact Hsubject.
  - apply Hother. discriminate.
Defined.

Lemma ParseFile_open_failure_witness :
  exists diag : Diagnostic,
    (forall I : Internals,
       ParseFile (R := scripted true false false []) "missing.json" []
       = (None, [diag], [CallOpen "missing.json"])) /\
    Severity diag = DiagError /\
    Subject diag = None /\
    Context diag = None.
Proof.
  apply (ParseFile_open_failure (R := scripted true false false [])
           "missing.json" [] "no such file or directory"
           [CallOpen "missing.json"]).
  reflexivity.
Defined.

Lemma ParseFile_read_failure_witness :
  exists (diag : Diagnostic) (rest : Diagnostics),
    (forall I : Internals,
       ParseFile (R := scripted false true false []) "disk.json" []
       = (None, diag :: rest,
          [CallOpen "disk.json"; CallReadAll; CallClose])) /\
    Severity diag = DiagError /\
    Summary diag = "Failed to read file".
Proof.
  apply (ParseFile_read_failure (R := scripted false true false [])
           "disk.json" [] tt [CallOpen "disk.json"] []
           "input/output error" [CallOpen "disk.json"; CallReadAll]
           None [CallOpen "disk.json"; CallReadAll; CallClose]);
    reflexivity.
Defined.

Lemma ParseFile_close_failure_witness :
  exists (file : File) (diag : Diagnostic),
    fst (Parse (I := emptyObjectParser) emptyObjectBytes "empty.json")
      = Some file /\
    ParseFile (I := emptyObjectParser)
      (R := scripted false false true emptyObjectBytes) "empty.json" []
      = (Some file,
         snd (Parse (I := emptyObjectParser) emptyObjectBytes "empty.json")
         ++ [diag],
         [CallOpen "empty.json"; CallReadAll; CallClose]) /\
    Severity diag = DiagWarning /\
    Severity diag <> DiagError /\
    Summary diag = "Failed to close file".
Proof.
  apply (ParseFile_close_failure (I := emptyObjectParser)
           (R := scripted false false true emptyObjectBytes)
           "empty.json" [] tt [CallOpen "empty.json"] emptyObjectBytes
           [CallOpen "empty.json"; CallReadAll] "file already closed"
           [CallOpen "empty.json"; CallReadAll; CallClose]);
    reflexivity.
Defined.

Lemma ParseFile_read_and_close_failure_witness :
  exists readDiag closeDiag : Diagnostic,
    (forall I : Internals,
       ParseFile (R := scripted false true true []) "disk.json" []
       = (None, [readDiag; closeDiag],
          [CallOpen "disk.json"; CallReadAll; CallClose])) /\
    Severity readDiag = DiagError /\
    Summary readDiag = "Failed to read file" /\
    Severity closeDiag = DiagWarning /\
    Summary closeDiag = "Failed to close file".
Proof.
  apply (ParseFile_read_and_close_failure
           (R := scripted false true true []) "disk.json" [] tt
           [CallOpen "disk.json"] [] "input/output error"
           [CallOpen "disk.json"; CallReadAll] "file already closed"
           [CallOpen "disk.json"; CallReadAll; CallClose]);
    reflexivity.
Defined.

(** ** Further properties of the entry points *)

Section ReturnedRoot.

Context {I : Internals}.

Variables (src : list byte) (filename : string) (start : Pos).


(** X2.  A result without any error diagnostic is the parser's own: the
    file wraps the root the parser returned, which is then an object or an
    array, and the diagnostics are the parser's, nothing added. *)
Theorem error_free_result_is_parsed (file : File) (diags : Diagnostics) :
  ParseWithStartPos src filename start = (Some file, diags) ->
  Forall (fun diag => Severity diag <> DiagError) diags ->
  val (Body file) = fst (parseFileContent src filename start) /\
  root (Nav file) = fst (parseFileContent src filename start) /\
  diags = snd (parseFileContent src filename start) /\
  isObject (val (Body file)) || isArray (val (Body file)) = true.
Proof.
  destruct (parseFileContent src filename start) as [rootNode diags0] eqn:Hparse.
  destruct (isObject rootNode || isArray rootNode) eqn:Hkind.
  - pose proof Hkind as Hor. apply orb_true_iff in Hor.
    rewrite (ParseWithStartPos_okay _ _ _ _ _ Hparse Hor).
    intros Hres _. injection Hres as <- <-. now repeat split.
  - apply orb_false_iff in Hkind. destruct Hkind as [Hobj Harr].
    rewrite (ParseWithStartPos_default _ _ _ _ _ Hparse Hobj Harr).
    intros Hres Hclean. injection Hres as _ <-.
    apply Forall_app in Hclean. destruct Hclean as [_ Hlast].
    inversion Hlast as [| diag rest Hsev _]. now contradiction Hsev.
Qed.

(** X8.  The root constraint is for documents, not for expressions: on a
    buffer for which both parser entry points return the same root, neither
    object nor array, [ParseExpressionWithStartPos] wraps that root and
    returns the parser's diagnostics as they are, where [ParseWithStartPos]
    adds one diagnostic and wraps another node. *)
Theorem root_constraint_spares_expressions
    (rootNode : node) (diags : Diagnostics) :
  parseFileContent src filename start = (rootNode, diags) ->
  parseExpression src filename start = (rootNode, diags) ->
  isObject rootNode = false ->
  isArray rootNode = false ->
  ParseExpressionWithStartPos src filename start =
    ({| json.src := rootNode |}, diags) /\
  exists (file : File) (diag : Diagnostic),
    ParseWithStartPos src filename start = (Some file, diags ++ [diag]) /\
    val (Body file) <> rootNode.
Proof.
  intros Hfile Hexpr Hobj Harr. split.
  - unfold ParseExpressionWithStartPos. now rewrite Hexpr.
  - rewrite (ParseWithStartPos_default _ _ _ _ _ Hfile Hobj Harr).
    do 2 eexists. split; [reflexivity |].
    cbn [Body val]. intros Heq. rewrite <- Heq in Hobj. discriminate.
Qed.

End ReturnedRoot.

Section FileLoadingPaths.

Context {R : GoRuntime} {I : Internals}.

Variables (filename : string) (w : World).

(** X3.  When the file opens, is read and is closed without failure,
    [ParseFile] returns exactly what [Parse] returns on the bytes read and
    the file name given, with no diagnostic of its own. *)
Theorem ParseFile_success (f : os_File) (w1 : World) (data : list byte)
    (w2 w3 : World) :
  os_Open filename w = (inl f, w1) ->
  io_ReadAll f w1 = (data, None, w2) ->
  File_Close f w2 = (None, w3) ->
  ParseFile filename w = (Parse data filename, w3).
Proof.
  intros Hopen Hread Hclose.
  rewrite (ParseFile_read _ _ _ _ _ _ _ _ Hopen Hread Hclose).
  rewrite app_nil_r. now destruct (Parse data filename).
Qed.

(** X4.  A file that was opened is read and then closed on every path:
    the world [ParseFile] leaves is the one left by [Close] called on the
    opened file after [io.ReadAll], whether reading failed or not. *)
Theorem ParseFile_closes_opened_file (f : os_File) (w1 : World) :
  os_Open filename w = (inl f, w1) ->
  snd (ParseFile filename w) =
    snd (File_Close f (snd (io_ReadAll f w1))).
Proof.
  intros Hopen.
  destruct (io_ReadAll f w1) as [[data [err |]] w2] eqn:Hread;
    destruct (File_Close f w2) as [cerr w3] eqn:Hclose.
  - rewrite (ParseFile_not_read _ _ _ _ _ _ _ _ _ Hopen Hread Hclose).
    cbn [snd]. now rewrite Hclose.
  - rewrite (ParseFile_read _ _ _ _ _ _ _ _ Hopen Hread Hclose).
    cbn [snd]. now rewrite Hclose.
Qed.

(** X5.  Once the file was opened and read, the error diagnostics that
    [ParseFile] returns are exactly the error diagnostics of [Parse] on the
    bytes read, whether closing failed or not. *)
Theorem ParseFile_close_adds_no_error (f : os_File) (w1 : World)
    (data : list byte) (w2 : World) :
  os_Open filename w = (inl f, w1) ->
  io_ReadAll f w1 = (data, None, w2) ->
  filter isError (snd (fst (ParseFile filename w))) =
    filter isError (snd (Parse data filename)).
Proof.
  intros Hopen Hread.
  destruct (File_Close f w2) as [cerr w3] eqn:Hclose.
  rewrite (ParseFile_read _ _ _ _ _ _ _ _ Hopen Hread Hclose).
  cbn [fst snd]. rewrite filter_app.
  destruct cerr; cbn; now rewrite app_nil_r.
Qed.

(** X6.  Once the file was opened and read, [ParseFile] returns a file
    whose [Bytes] are the bytes that were read. *)
Theorem ParseFile_keeps_bytes_read (f : os_File) (w1 : World)
    (data : list byte) (w2 : World) :
  os_Open filename w = (inl f, w1) ->
  io_ReadAll f w1 = (data, None, w2) ->
  exists file : File,
    fst (fst (ParseFile filename w)) = Some file /\
    Bytes file = data.
Proof.
  intros Hopen Hread.
  destruct (File_Close f w2) as [cerr w3] eqn:Hclose.
  rewrite (ParseFile_read _ _ _ _ _ _ _ _ Hopen Hread Hclose).
  cbn [fst]. unfold Parse, ParseWithStartPos.
  destruct (parseFileContent _ _ _) as [rootNode diags].
  destruct rootNode; eexists; split; reflexivity.
Qed.

(** X7.  When [ParseFile] returns nil, its diagnostics begin with an
    error, and none of them has a subject or a context range. *)
Theorem ParseFile_nil_diagnostics :
  fst (fst (ParseFile filename w)) = None ->
  (exists (diag : Diagnostic) (rest : Diagnostics),
     snd (fst (ParseFile filename w)) = diag :: rest /\
     Severity diag = DiagError) /\
  Forall (fun diag => Subject diag = None /\ Context diag = None)
    (snd (fst (ParseFile filename w))).
Proof.
  destruct (os_Open filename w) as [[f | err] w1] eqn:Hopen.
  - destruct (io_ReadAll f w1) as [[data [err |]] w2] eqn:Hread;
      destruct (File_Close f w2) as [cerr w3] eqn:Hclose.
    + rewrite (ParseFile_not_read _ _ _ _ _ _ _ _ _ Hopen Hread Hclose).
      intros _. cbn [fst snd]. split.
      * do 2 eexists. split; reflexivity.
      * destruct cerr; repeat constructor.
    + rewrite (ParseFile_read _ _ _ _ _ _ _ _ Hopen Hread Hclose).
      cbn [fst]. intros Hnil. now apply Parse_not_nil in Hnil.
  - rewrite (ParseFile_not_opened _ _ _ _ Hopen).
    intros _. cbn [fst snd]. split.
    + do 2 eexists. split; reflexivity.
    + repeat constructor.
Qed.

End FileLoadingPaths.

(** ** The further properties at concrete inputs *)

Lemma error_free_result_is_parsed_witness :
  val (Body {| Body := {| val := emptyObjectRoot "empty.json" embeddedAt |};
               Bytes := emptyObjectBytes;
               Nav := {| root := emptyObjectRoot "empty.json" embeddedAt |} |})
  = fst (parseFileContent (Internals := emptyObjectParser) emptyObjectBytes
           "empty.json" embeddedAt).
Proof.
  apply (error_free_result_is_parsed (I := emptyObjectParser)
           emptyObjectBytes "empty.json" embeddedAt _ []).
  - reflexivity.
  - constructor.
Defined.

Lemma root_constraint_spares_expressions_witness :
  ParseExpressionWithStartPos (I := helloParser) helloBytes "hello.json"
    embeddedAt
  = ({| json.src := helloRoot "hello.json" embeddedAt |}, []).
Proof.
  apply (root_constraint_spares_expressions (I := helloParser) helloBytes
           "hello.json" embeddedAt (helloRoot "hello.json" embeddedAt) []);
    reflexivity.
Defined.

Lemma ParseFile_success_witness :
  ParseFile (I := emptyObjectParser)
    (R := scripted false false false emptyObjectBytes) "empty.json" []
  = (Parse (I := emptyObjectParser) emptyObjectBytes "empty.json",
     [CallOpen "empty.json"; CallReadAll; CallClose]).
Proof.
  apply (ParseFile_success (I := emptyObjectParser)
           (R := scripted false false false emptyObjectBytes)
           "empty.json" [] tt [CallOpen "empty.json"] emptyObjectBytes
           [CallOpen "empty.json"; CallReadAll]
           [CallOpen "empty.json"; CallReadAll; CallClose]);
    reflexivity.
Defined.

(** Reading fails, and the file is closed all the same. *)
Lemma ParseFile_closes_opened_file_witness :
  snd (ParseFile (I := helloParser) (R := scripted false true false [])
         "disk.json" [])
  = [CallOpen "disk.json"; CallReadAll; CallClose].
Proof.
  apply (ParseFile_closes_opened_file (I := helloParser)
           (R := scripted false true false []) "disk.json" [] tt
           [CallOpen "disk.json"]).
  reflexivity.
Defined.

(** A string document and a failing close: one error, the one of [Parse]. *)
Lemma ParseFile_close_adds_no_error_witness :
  filter isError
    (snd (fst (ParseFile (I := helloParser)
                 (R := scripted false false true helloBytes)
                 "hello.json" [])))
  = filter isError (snd (Parse (I := helloParser) helloBytes "hello.json")).
Proof.
  apply (ParseFile_close_adds_no_error (I := helloParser)
           (R := scripted false false true helloBytes) "hello.json" [] tt
           [CallOpen "hello.json"] helloBytes
           [CallOpen "hello.json"; CallReadAll]);
    reflexivity.
Defined.

Lemma ParseFile_keeps_bytes_read_witness :
  exists file : File,
    fst (fst (ParseFile (I := helloParser)
                (R := scripted false false true helloBytes)
                "hello.json" [])) = Some file /\
    Bytes file = helloBytes.
Proof.
  apply (ParseFile_keeps_bytes_read (I := helloParser)
           (R := scripted false false true helloBytes) "hello.json" [] tt
           [CallOpen "hello.json"] helloBytes
           [CallOpen "hello.json"; CallReadAll]);
    reflexivity.
Defined.

Lemma ParseFile_nil_diagnostics_witness :
  Forall (fun diag => Subject diag = None /\ Context diag = None)
    (snd (fst (ParseFile (I := helloParser)
                 (R := scripted false true true []) "disk.json" []))).
Proof.
  apply (ParseFile_nil_diagnostics (I := helloParser)
           (R := scripted false true true []) "disk.json" []).
  reflexivity.
Defined.

End json.
